(** * aleo_python/hash_integer.py: the command-line shim around [hash_int]

    The script parses one integer from the command line, hands it to the
    native primitive [aleo_python.hash_int] and prints the digest:

<<
    def hash_integer(integer):
        return hash_int(integer)

    if __name__ == "__main__":
        if len(sys.argv) > 1:
            try:
                input_integer = int(sys.argv[1])
                hashed_integer = hash_integer(input_integer)
                print(f"The hash of {input_integer} is {hashed_integer}.")
            except ValueError:
                print("Invalid input. Please provide an integer.")
        else:
            print("Please provide an integer as a command line argument.")
>>

    The embedding is shallow.  Python integers are [Z], Python strings are
    [string] (a character is its code point, code points below 256), and a
    computation is a value of the small trace-and-exception monad [M]: the
    list of observable events it performed (calls of the builtin [int], calls
    of the primitive, lines written to standard output) and either its value
    or the exception that left it.

    The interpreter enters through two settings, gathered in [interpreter]:
    the cap on the number of digits of a converted integer literal, and what
    the encoding of standard output can encode.  Standard output is taken to
    be open, and memory to suffice. *)

From Stdlib Require Import ZArith List String Ascii Bool Lia.
From Stdlib Require Import DecimalString DecimalFacts DecimalPos DecimalZ.
Import ListNotations.

#[local] Open Scope string_scope.
#[local] Open Scope Z_scope.

(** ** Python values and effects *)

(** Exceptions are kept up to what an [except ValueError] clause can tell
    apart: an instance of [ValueError] (or of one of its subclasses, such as
    [UnicodeEncodeError]), or an instance of a class outside it. *)
Inductive exn : Type :=
| ValueError
| OtherException (cls : string).

Inductive result (A : Type) : Type :=
| Ok (a : A)
| Raise (e : exn).

Arguments Ok {A} a.
Arguments Raise {A} e.

Inductive event : Type :=
| Call_int (text : string)
| Call_hash_int (n : Z)
| Print (line : string).

Definition M (A : Type) : Type := (list event * result A)%type.

Definition ret {A} (a : A) : M A := ([], Ok a).

Definition raise {A} (e : exn) : M A := ([], Raise e).

(** A step that performs no event: it returns or raises. *)
Definition lift {A} (r : result A) : M A := ([], r).

Definition bind {A B} (m : M A) (k : A -> M B) : M B :=
  match m with
  | (t, Ok a) => let (t', r) := k a in ((t ++ t')%list, r)
  | (t, Raise e) => (t, Raise e)
  end.

Notation "x <- m ;; k" := (bind m (fun x => k))
  (at level 61, m at next level, right associativity).

(** [try: body except ValueError: handler]. *)
Definition try_except_ValueError {A} (body handler : M A) : M A :=
  match body with
  | (t, Raise ValueError) => let (t', r) := handler in ((t ++ t')%list, r)
  | other => other
  end.

(** [xs[i]]: an index out of range raises [IndexError]. *)
Definition getitem {A} (xs : list A) (i : nat) : M A :=
  match nth_error xs i with
  | Some x => ret x
  | None => raise (OtherException "IndexError")
  end.

(** ** The interpreter *)

(** [int_max_str_digits] is [sys.get_int_max_str_digits()]: 4300 by default,
    0 when the cap is off (and on interpreters that have none); the
    interpreter takes no other value below 640.
    [stdout_encodes] tells whether the encoding of [sys.stdout] can encode a
    text that is not plain ASCII. *)
Record interpreter : Type := {
  int_max_str_digits : nat;
  stdout_encodes : string -> bool
}.

(** The cap on conversions between [int] and [str]: a count of digits above
    640 is checked against the setting, when the setting is not 0. *)
Definition digits_exceed (py : interpreter) (count : nat) : bool :=
  ((640 <? count) && (0 <? int_max_str_digits py)
   && (int_max_str_digits py <? count))%nat.

Definition is_ascii_text (s : string) : bool :=
  forallb (fun c => (N_of_ascii c <? 128)%N) (list_ascii_of_string s).

(** Plain ASCII is encoded by every encoding of standard output. *)
Definition writable (py : interpreter) (line : string) : bool :=
  is_ascii_text line || stdout_encodes py line.

(** [print(line)]: the line goes to standard output, or the encoder raises
    [UnicodeEncodeError], a [ValueError], and nothing is written. *)
Definition print (py : interpreter) (line : string) : M unit :=
  if writable py line then ([Print line], Ok tt) else raise ValueError.

(** ** The builtin [int] on a string, base ten

    Optional white space, an optional sign, decimal digits with single
    underscores allowed between two digits, optional white space, and no more
    digits than the cap allows.  Anything else is a [ValueError]. *)

(** The white space [int] strips: tab, line feed, vertical tab, form feed,
    carriage return and space, and the two spaces outside ASCII among the
    code points below 256, U+0085 and U+00A0. *)
Definition is_space (c : ascii) : bool :=
  let k := N_of_ascii c in
  (((9 <=? k) && (k <=? 13)) || (k =? 32) || (k =? 133) || (k =? 160))%N.

Definition is_digit (c : ascii) : bool :=
  let k := N_of_ascii c in ((48 <=? k) && (k <=? 57))%N.

Definition digit_value (c : ascii) : Z := Z.of_N (N_of_ascii c) - 48.

Definition is_underscore (c : ascii) : bool := Ascii.eqb c "_".

Fixpoint skip_spaces (cs : list ascii) : list ascii :=
  match cs with
  | c :: cs' => if is_space c then skip_spaces cs' else cs
  | [] => []
  end.

(** The digit loop: [prev_us] tells whether the previous character was an
    underscore, [count] is the number of digits read and [acc] their value.
    It stops at the first character that is neither a digit nor an underscore
    and fails on a doubled or a trailing underscore. *)
Fixpoint scan_digits (prev_us : bool) (count : nat) (acc : Z) (cs : list ascii)
  : option (nat * Z * list ascii) :=
  match cs with
  | c :: cs' =>
      if is_digit c then scan_digits false (S count) (10 * acc + digit_value c) cs'
      else if is_underscore c then
        if prev_us then None else scan_digits true count acc cs'
      else if prev_us then None else Some (count, acc, cs)
  | [] => if prev_us then None else Some (count, acc, [])
  end.

Definition split_sign (cs : list ascii) : Z * list ascii :=
  match cs with
  | c :: cs' =>
      if Ascii.eqb c "+" then (1, cs')
      else if Ascii.eqb c "-" then (-1, cs')
      else (1, cs)
  | [] => (1, [])
  end.

(** What is left once the leading white space and the sign are gone: no
    leading underscore, at least one digit, no more digits than the cap
    allows (leading zeros count, underscores do not), and nothing but white
    space after them. *)
Definition parse_digits (py : interpreter) (sign : Z) (cs : list ascii)
  : result Z :=
  match cs with
  | c :: _ =>
      if is_underscore c then Raise ValueError
      else
        match scan_digits false 0 0 cs with
        | Some (S k, v, rest) =>
            if digits_exceed py (S k) then Raise ValueError
            else
              match skip_spaces rest with
              | [] => Ok (sign * v)
              | _ :: _ => Raise ValueError
              end
        | _ => Raise ValueError
        end
  | [] => Raise ValueError
  end.

Definition parse_int (py : interpreter) (text : string) : result Z :=
  let (sign, cs) := split_sign (skip_spaces (list_ascii_of_string text)) in
  parse_digits py sign cs.

Definition int (py : interpreter) (text : string) : M Z :=
  ([Call_int text], parse_int py text).

(** ** [str] of an integer, and integers in f-strings *)

(** The decimal text of [n]. *)
Definition str (n : Z) : string := NilZero.string_of_int (Z.to_int n).

(** The number of digits of that text, the sign left out. *)
Definition decimal_digits (n : Z) : nat :=
  match Z.to_int n with
  | Decimal.Pos d | Decimal.Neg d => Decimal.nb_digits d
  end.

(** [str(n)] and [{n}] in an f-string: the decimal text, or a [ValueError]
    when it has more digits than the cap allows. *)
Definition format_int (py : interpreter) (n : Z) : result string :=
  if digits_exceed py (decimal_digits n) then Raise ValueError
  else Ok (str n).

(** The text of a negative literal with the decimal digits [d], leading
    zeros included: a minus sign and the digits. *)
Definition negative_literal (d : Decimal.uint) : string :=
  String "-" (NilEmpty.string_of_uint d).

(** The value of the digits [d] read after digits worth [acc]. *)
Fixpoint decimal_acc (d : Decimal.uint) (acc : Z) : Z :=
  match d with
  | Decimal.Nil => acc
  | Decimal.D0 d => decimal_acc d (10 * acc + 0)
  | Decimal.D1 d => decimal_acc d (10 * acc + 1)
  | Decimal.D2 d => decimal_acc d (10 * acc + 2)
  | Decimal.D3 d => decimal_acc d (10 * acc + 3)
  | Decimal.D4 d => decimal_acc d (10 * acc + 4)
  | Decimal.D5 d => decimal_acc d (10 * acc + 5)
  | Decimal.D6 d => decimal_acc d (10 * acc + 6)
  | Decimal.D7 d => decimal_acc d (10 * acc + 7)
  | Decimal.D8 d => decimal_acc d (10 * acc + 8)
  | Decimal.D9 d => decimal_acc d (10 * acc + 9)
  end.

(** The characters a text that reads as an integer is made of. *)
Definition literal_char (c : ascii) : bool :=
  is_digit c || is_underscore c || is_space c
  || Ascii.eqb c "+" || Ascii.eqb c "-".

(** A text of white space only. *)
Definition blank (s : string) : bool :=
  forallb is_space (list_ascii_of_string s).

(** [-x] on the result of [int]. *)
Definition negated (r : result Z) : result Z :=
  match r with
  | Ok v => Ok (- v)
  | Raise e => Raise e
  end.

(** ** The script *)

Definition usage_hint : string :=
  "Please provide an integer as a command line argument.".

Definition invalid_input : string :=
  "Invalid input. Please provide an integer.".

Definition sentence (input digest_text : string) : string :=
  "The hash of " ++ input ++ " is " ++ digest_text ++ ".".

Section Script.

Variable py : interpreter.

(** What [hash_int] returns, and how an f-string renders it: a text, or the
    exception its [__format__] raises. *)
Variable digest : Type.
Variable format_digest : digest -> result string.

(** The primitive imported from the native module: a pure function of its
    argument that returns a digest or raises. *)
Variable hash_int : Z -> result digest.

Definition call_hash_int (n : Z) : M digest := ([Call_hash_int n], hash_int n).

Definition hash_integer (integer : Z) : M digest :=
  call_hash_int integer.

(** The f-string renders the integer, then the digest, and only then is the
    line printed; all of it inside the [try]. *)
Definition main (argv : list string) : M unit :=
  if (1 <? List.length argv)%nat then
    try_except_ValueError
      (text <- getitem argv 1 ;;
       input_integer <- int py text ;;
       hashed_integer <- hash_integer input_integer ;;
       input_text <- lift (format_int py input_integer) ;;
       digest_text <- lift (format_digest hashed_integer) ;;
       print py ("The hash of " ++ input_text ++ " is " ++ digest_text ++ "."))
      (print py "Invalid input. Please provide an integer.")
  else
    print py "Please provide an integer as a command line argument.".

(** Two calls in a row, both results kept. *)
Definition hash_integer_twice (n : Z) : M (digest * digest) :=
  first <- hash_integer n ;;
  second <- hash_integer n ;;
  ret (first, second).

(** What a run on an argument that reads as [n] shows, by what the primitive
    does on [n] and by how the digest renders. *)
Definition shown (n : Z) : list string * result unit :=
  match hash_int n with
  | Ok d =>
      match format_digest d with
      | Ok digest_text =>
          if writable py (sentence (str n) digest_text)
          then ([sentence (str n) digest_text], Ok tt)
          else ([invalid_input], Ok tt)
      | Raise ValueError => ([invalid_input], Ok tt)
      | Raise e => ([], Raise e)
      end
  | Raise ValueError => ([invalid_input], Ok tt)
  | Raise e => ([], Raise e)
  end.

End Script.

Arguments call_hash_int {digest} hash_int n.
Arguments hash_integer {digest} hash_int integer.
Arguments main py {digest} format_digest hash_int argv.
Arguments hash_integer_twice {digest} hash_int n.
Arguments shown py {digest} format_digest hash_int n.

(** ** What a user of the command line sees *)

Fixpoint stdout (t : list event) : list string :=
  match t with
  | Print line :: t' => line :: stdout t'
  | _ :: t' => stdout t'
  | [] => []
  end.

Fixpoint hash_calls (t : list event) : list Z :=
  match t with
  | Call_hash_int n :: t' => n :: hash_calls t'
  | _ :: t' => hash_calls t'
  | [] => []
  end.

Fixpoint int_calls (t : list event) : list string :=
  match t with
  | Call_int s :: t' => s :: int_calls t'
  | _ :: t' => int_calls t'
  | [] => []
  end.

(** Standard output and how the process ended: [Ok tt] is a normal exit,
    [Raise e] an exception that nothing caught (a traceback). *)
Definition observe (run : M unit) : list string * result unit :=
  (stdout (fst run), snd run).

(** ** The hash core as the specification describes it *)

Section HashCore.

Variable digest : Type.

(** The largest integer the configured encoding width can represent. *)
Variable capacity : Z.

(** Encoding, absorption, permutation and digest encoding of an integer of
    the valid domain. *)
Variable pipeline : Z -> digest.

(** The exception that reports [InputTooLarge] to the caller. *)
Variable InputTooLarge : exn.

(** What the core does with a negative integer: the sign policy, which the
    specification leaves open. *)
Variable sign_policy : Z -> result digest.

(** Modelled from the spec: the hash core behind [hash_int] is native code
    of the package and is not among the Python sources.  Its input is a
    non-negative integer; it is a pure function that returns the digest of
    an integer within the configured capacity and fails with [InputTooLarge]
    when the integer exceeds it, with no other failure on that domain.  What
    it does with a negative integer is the sign policy, left open. *)
Definition spec_hash (n : Z) : result digest :=
  if n <? 0 then sign_policy n
  else if n <=? capacity then Ok (pipeline n)
  else Raise InputTooLarge.

End HashCore.

Arguments spec_hash {digest} capacity pipeline InputTooLarge sign_policy n.

(** ** A sample interpreter and primitive, for running the script *)

Module Sample.

(** The default cap, and a standard output in UTF-8. *)
Definition py : interpreter :=
  {| int_max_str_digits := 4300; stdout_encodes := fun _ => true |}.

(** The same interpreter with a standard output in plain ASCII. *)
Definition py_ascii : interpreter :=
  {| int_max_str_digits := 4300; stdout_encodes := fun _ => false |}.

Definition hash_int (n : Z) : result Z :=
  if n <? 0 then Raise ValueError
  else if 2 ^ 64 <=? n then Raise (OtherException "OverflowError")
  else Ok ((n * n + 7) mod 1009).

Definition format_digest (d : Z) : result string := format_int py d.

Definition capacity : Z := 2 ^ 64 - 1.

Definition pipeline (n : Z) : Z := (n * n + 7) mod 1009.

Definition InputTooLarge : exn := OtherException "OverflowError".

(** A sign policy: negative integers are turned down. *)
Definition sign_policy (n : Z) : result Z := Raise ValueError.

(** The hash core of the specification with these settings. *)
Definition core (n : Z) : result Z :=
  spec_hash capacity pipeline InputTooLarge sign_policy n.

(** A digit repeated. *)
Definition ones (count : nat) : Decimal.uint :=
  Nat.iter count Decimal.D1 Decimal.Nil.

(** An interpreter with the lowest cap that can be set. *)
Definition py_low : interpreter :=
  {| int_max_str_digits := 640; stdout_encodes := fun _ => true |}.

(** A primitive whose digest is an integer of 641 digits. *)
Definition wide_hash_int (n : Z) : result Z := Ok (10 ^ 640).

End Sample.

(** * Properties *)

(** ** Lists and texts *)

Lemma nth_error_1_length {A} (xs : list A) (x : A) :
  nth_error xs 1 = Some x -> (1 <? List.length xs)%nat = true.
Proof.
  intros H. apply Nat.ltb_lt. apply nth_error_Some. congruence.
Qed.

Lemma list_ascii_of_string_app (a b : string) :
  list_ascii_of_string (a ++ b) =
    (list_ascii_of_string a ++ list_ascii_of_string b)%list.
Proof.
  induction a as [|c a IH]; simpl; congruence.
Qed.

Lemma forallb_impl {A} (p q : A -> bool) (l : list A) :
  (forall x, p x = true -> q x = true) ->
  forallb p l = true -> forallb q l = true.
Proof.
  intros Hpq. induction l as [|x l IH]; simpl; [trivial|].
  intros H. apply andb_true_iff in H as [Hx Hl].
  now rewrite (Hpq _ Hx), (IH Hl).
Qed.

(** ** The characters [int] tells apart *)

Lemma is_space_plain (c : ascii) :
  is_space c = true ->
  is_digit c = false /\ is_underscore c = false /\
  Ascii.eqb c "+" = false /\ Ascii.eqb c "-" = false.
Proof.
  destruct c as [[|] [|] [|] [|] [|] [|] [|] [|]];
    vm_compute; intros H; try discriminate H; repeat split.
Qed.

Lemma is_digit_plain (c : ascii) :
  is_digit c = true ->
  is_space c = false /\ is_underscore c = false /\
  Ascii.eqb c "+" = false /\ Ascii.eqb c "-" = false.
Proof.
  destruct c as [[|] [|] [|] [|] [|] [|] [|] [|]];
    vm_compute; intros H; try discriminate H; repeat split.
Qed.

Lemma digit_value_range (c : ascii) :
  is_digit c = true -> 0 <= digit_value c <= 9.
Proof.
  unfold is_digit, digit_value. intros H.
  apply andb_true_iff in H as [Hlo Hhi].
  apply N.leb_le in Hlo, Hhi. lia.
Qed.

(** ** White space *)

Lemma skip_spaces_blank (ws cs : list ascii) :
  forallb is_space ws = true -> skip_spaces (ws ++ cs)%list = skip_spaces cs.
Proof.
  induction ws as [|w ws IH]; simpl; [trivial|].
  intros H. apply andb_true_iff in H as [Hw Hws]. rewrite Hw. auto.
Qed.

Lemma skip_spaces_all_blank (ws : list ascii) :
  forallb is_space ws = true -> skip_spaces ws = [].
Proof.
  intros H. rewrite <- (List.app_nil_r ws). now rewrite skip_spaces_blank.
Qed.

Lemma skip_spaces_app (a b : list ascii) :
  skip_spaces (a ++ b)%list =
    match skip_spaces a with
    | [] => skip_spaces b
    | _ :: _ => (skip_spaces a ++ b)%list
    end.
Proof.
  induction a as [|c a IH]; simpl; [reflexivity|].
  destruct (is_space c); [exact IH|reflexivity].
Qed.

Lemma skip_spaces_split (cs : list ascii) :
  exists ws, cs = (ws ++ skip_spaces cs)%list /\ forallb is_space ws = true.
Proof.
  induction cs as [|c cs (ws & Hcs & Hws)]; [now exists []|].
  simpl. destruct (is_space c) eqn:Hc.
  - exists (c :: ws). simpl. rewrite Hc, Hws. split; [congruence|reflexivity].
  - now exists [].
Qed.

Lemma skip_spaces_nil (cs : list ascii) :
  skip_spaces cs = [] -> forallb is_space cs = true.
Proof.
  intros H. destruct (skip_spaces_split cs) as (ws & Hcs & Hws).
  rewrite H, List.app_nil_r in Hcs. now subst.
Qed.

(** ** The digit loop *)

(** White space after the text leaves the digit loop as it was. *)
Lemma scan_digits_blank (ws : list ascii) :
  forallb is_space ws = true ->
  forall (cs : list ascii) (us : bool) (count : nat) (acc : Z),
    scan_digits us count acc (cs ++ ws)%list =
      match scan_digits us count acc cs with
      | Some (k, v, rest) => Some (k, v, (rest ++ ws)%list)
      | None => None
      end.
Proof.
  intros Hws. induction cs as [|c cs IH]; intros us count acc.
  - cbn [app scan_digits]. destruct ws as [|w ws]; [now destruct us|].
    simpl in Hws. apply andb_true_iff in Hws as [Hw _].
    destruct (is_space_plain _ Hw) as (Hd & Hu & _).
    cbn [scan_digits]. rewrite Hd, Hu. now destruct us.
  - cbn [app scan_digits].
    destruct (is_digit c); [apply IH|].
    destruct (is_underscore c); [destruct us; [reflexivity|apply IH]|].
    now destruct us.
Qed.

(** What the digit loop consumed is digits and underscores. *)
Lemma scan_digits_split (cs : list ascii) :
  forall (us : bool) (count k : nat) (acc v : Z) (rest : list ascii),
    scan_digits us count acc cs = Some (k, v, rest) ->
    exists pre, cs = (pre ++ rest)%list /\
                forallb (fun c => is_digit c || is_underscore c) pre = true.
Proof.
  induction cs as [|c cs IH]; intros us count k acc v rest; cbn [scan_digits].
  - destruct us; [discriminate|]. intros [= _ _ <-]. now exists [].
  - destruct (is_digit c) eqn:Hd.
    + intros H. destruct (IH _ _ _ _ _ _ H) as (pre & -> & Hpre).
      exists (c :: pre). simpl. now rewrite Hd, Hpre.
    + destruct (is_underscore c) eqn:Hu.
      * destruct us; [discriminate|].
        intros H. destruct (IH _ _ _ _ _ _ H) as (pre & -> & Hpre).
        exists (c :: pre). simpl. now rewrite Hd, Hu, Hpre.
      * destruct us; [discriminate|]. intros [= _ _ <-]. now exists [].
Qed.

(** The value of [count] digits is below [10 ^ count]. *)
Lemma scan_digits_bound (cs : list ascii) :
  forall (us : bool) (count k : nat) (acc v : Z) (rest : list ascii),
    scan_digits us count acc cs = Some (k, v, rest) ->
    0 <= acc < 10 ^ Z.of_nat count ->
    0 <= v < 10 ^ Z.of_nat k.
Proof.
  induction cs as [|c cs IH]; intros us count k acc v rest; cbn [scan_digits].
  - destruct us; [discriminate|]. now intros [= <- <- _].
  - destruct (is_digit c) eqn:Hd.
    + intros H Hacc. apply (IH _ _ _ _ _ _ H).
      pose proof (digit_value_range _ Hd).
      rewrite Nat2Z.inj_succ, Z.pow_succ_r by lia. lia.
    + destruct (is_underscore c).
      * destruct us; [discriminate|]. intros H Hacc. exact (IH _ _ _ _ _ _ H Hacc).
      * destruct us; [discriminate|]. now intros [= <- <- _].
Qed.

(** ** Decimal digits and their value *)

Lemma decimal_acc_pos (d : Decimal.uint) : forall p : positive,
  decimal_acc d (Z.pos p) = Z.pos (Pos.of_uint_acc d p).
Proof.
  induction d; intros p; cbn [decimal_acc Pos.of_uint_acc]; trivial;
    rewrite <- IHd; f_equal; lia.
Qed.

Lemma decimal_acc_of_uint (d : Decimal.uint) : decimal_acc d 0 = Z.of_uint d.
Proof.
  unfold Z.of_uint.
  induction d; cbn [decimal_acc Pos.of_uint Z.of_N]; trivial;
    apply decimal_acc_pos.
Qed.

Lemma decimal_acc_split (d : Decimal.uint) : forall acc : Z,
  decimal_acc d acc =
    acc * 10 ^ Z.of_nat (Decimal.nb_digits d) + decimal_acc d 0.
Proof.
  induction d; intros acc; cbn [decimal_acc Decimal.nb_digits];
    [cbn; lia|..];
    rewrite (IHd (10 * acc + _)), (IHd (10 * 0 + _));
    rewrite Nat2Z.inj_succ, Z.pow_succ_r by lia; ring.
Qed.

Lemma decimal_acc_nonneg (d : Decimal.uint) : 0 <= decimal_acc d 0.
Proof.
  rewrite decimal_acc_of_uint. unfold Z.of_uint. apply N2Z.is_nonneg.
Qed.

(** Digits without a leading zero are worth at least [10 ^ (count - 1)]. *)
Lemma decimal_acc_lower (d : Decimal.uint) :
  Decimal.nzhead d = d -> d <> Decimal.Nil ->
  10 ^ Z.of_nat (pred (Decimal.nb_digits d)) <= decimal_acc d 0.
Proof.
  intros Hhead Hd.
  destruct d; [congruence| |..];
    [ exfalso; cbn [Decimal.nzhead] in Hhead;
      pose proof (nb_digits_nzhead d) as Hle; rewrite Hhead in Hle;
      cbn [Decimal.nb_digits] in Hle; lia
    | cbn [decimal_acc Decimal.nb_digits pred];
      rewrite decimal_acc_split;
      pose proof (decimal_acc_nonneg d);
      assert (0 < 10 ^ Z.of_nat (Decimal.nb_digits d))
        by (apply Z.pow_pos_nonneg; lia);
      nia .. ].
Qed.

Lemma to_uint_nzhead (p : positive) :
  Decimal.nzhead (Pos.to_uint p) = Pos.to_uint p.
Proof.
  pose proof (DecimalPos.Unsigned.to_of (Pos.to_uint p)) as H.
  rewrite DecimalPos.Unsigned.of_to in H. cbn [N.to_uint] in H.
  pose proof (DecimalPos.Unsigned.to_uint_nonzero p) as Hnz.
  unfold Decimal.unorm in H.
  destruct (Decimal.nzhead (Pos.to_uint p)) eqn:E;
    [now rewrite <- H in Hnz | congruence ..].
Qed.

Lemma nb_digits_nonnil (d : Decimal.uint) :
  d <> Decimal.Nil -> exists k, Decimal.nb_digits d = S k.
Proof.
  destruct d; intros Hd; [congruence|eexists; reflexivity..].
Qed.

(** An integer below [10 ^ count] in magnitude has at most [count] digits. *)
Lemma decimal_digits_le (v : Z) (k : nat) :
  0 <= v < 10 ^ Z.of_nat (S k) ->
  (decimal_digits v <= S k)%nat /\ (decimal_digits (- v) <= S k)%nat.
Proof.
  intros Hv.
  assert (Hp : forall p, Z.pos p < 10 ^ Z.of_nat (S k) ->
                         (Decimal.nb_digits (Pos.to_uint p) <= S k)%nat).
  { intros p Hlt.
    pose proof (decimal_acc_lower (Pos.to_uint p) (to_uint_nzhead p)
                  (DecimalPos.Unsigned.to_uint_nonnil p)) as Hlow.
    rewrite decimal_acc_of_uint in Hlow. unfold Z.of_uint in Hlow.
    rewrite DecimalPos.Unsigned.of_to in Hlow. cbn [Z.of_N] in Hlow.
    assert (Hpow : 10 ^ Z.of_nat (pred (Decimal.nb_digits (Pos.to_uint p)))
                   < 10 ^ Z.of_nat (S k)) by lia.
    apply Z.pow_lt_mono_r_iff in Hpow; lia. }
  destruct v as [|p|p]; [split; cbn; lia | | lia].
  split; cbn [Z.opp decimal_digits Z.to_int]; now apply Hp.
Qed.

Lemma digits_exceed_le (py : interpreter) (i j : nat) :
  (i <= j)%nat -> digits_exceed py j = false -> digits_exceed py i = false.
Proof.
  unfold digits_exceed. rewrite !andb_false_iff, !Nat.ltb_ge. lia.
Qed.

(** The digit loop reads the digits of [d] one by one. *)
Lemma scan_digits_uint (d : Decimal.uint) :
  forall (us : bool) (count : nat) (acc : Z) (rest : list ascii),
    d <> Decimal.Nil ->
    scan_digits us count acc
      (list_ascii_of_string (NilEmpty.string_of_uint d) ++ rest)%list
    = scan_digits false (count + Decimal.nb_digits d) (decimal_acc d acc) rest.
Proof.
  induction d; intros us count acc rest Hd; [congruence|..];
    cbn [NilEmpty.string_of_uint list_ascii_of_string app scan_digits
         Decimal.nb_digits decimal_acc];
    (destruct d;
     [ cbn [NilEmpty.string_of_uint list_ascii_of_string app
            Decimal.nb_digits decimal_acc];
       rewrite Nat.add_1_r; destruct rest; reflexivity
     | rewrite Nat.add_succ_r; apply (IHd false (S count)); discriminate .. ]).
Qed.

Lemma uint_chars_head (d : Decimal.uint) :
  d <> Decimal.Nil ->
  exists c r, list_ascii_of_string (NilEmpty.string_of_uint d) = c :: r /\
              is_digit c = true.
Proof.
  destruct d; intros Hd; [congruence|..];
    cbn [NilEmpty.string_of_uint list_ascii_of_string];
    do 2 eexists; (split; [reflexivity|reflexivity]).
Qed.

(** ** The builtin [int] *)

Section Int.

Variable py : interpreter.

Lemma parse_int_raises_ValueError (text : string) (e : exn) :
  parse_int py text = Raise e -> e = ValueError.
Proof.
  unfold parse_int, parse_digits.
  destruct (split_sign _) as [sign cs].
  destruct cs as [|c cs]; [congruence|].
  destruct (is_underscore c); [congruence|].
  destruct (scan_digits _ _ _ _) as [[[[|k] v] rest]|]; try congruence.
  destruct (digits_exceed py (S k)); [congruence|].
  destruct (skip_spaces rest); congruence.
Qed.

Lemma parse_int_cases (text : string) :
  parse_int py text = Raise ValueError \/ exists n, parse_int py text = Ok n.
Proof.
  destruct (parse_int py text) as [n|e] eqn:E.
  - right. now exists n.
  - left. now rewrite (parse_int_raises_ValueError _ _ E).
Qed.

Lemma not_integer_ValueError (text : string) :
  (forall n, parse_int py text <> Ok n) -> parse_int py text = Raise ValueError.
Proof.
  intros H. destruct (parse_int_cases text) as [E|[n E]]; [exact E|].
  now destruct (H n).
Qed.

Lemma split_sign_sign (cs r : list ascii) (sign : Z) :
  split_sign cs = (sign, r) -> sign = 1 \/ sign = -1.
Proof.
  unfold split_sign. destruct cs as [|c cs]; [intros [= <- _]; now left|].
  destruct (Ascii.eqb c "+"); [intros [= <- _]; now left|].
  destruct (Ascii.eqb c "-"); intros [= <- _]; [now right|now left].
Qed.

(** Digits that the digit loop reads to their end, within the cap, are read
    as the value the loop found. *)
Lemma parse_digits_scan (sign : Z) (c : ascii) (r : list ascii) (k : nat)
    (v : Z) :
  is_digit c = true ->
  scan_digits false 0 0 (c :: r) = Some (S k, v, []) ->
  digits_exceed py (S k) = false ->
  parse_digits py sign (c :: r) = Ok (sign * v).
Proof.
  intros Hc Hscan Hcap. destruct (is_digit_plain _ Hc) as (_ & Hu & _).
  unfold parse_digits. now rewrite Hu, Hscan, Hcap.
Qed.

Lemma parse_int_scan (text : string) (c : ascii) (r : list ascii) (k : nat)
    (v : Z) :
  list_ascii_of_string text = c :: r ->
  is_digit c = true ->
  scan_digits false 0 0 (c :: r) = Some (S k, v, []) ->
  digits_exceed py (S k) = false ->
  parse_int py text = Ok v.
Proof.
  intros Htext Hc Hscan Hcap.
  destruct (is_digit_plain _ Hc) as (Hs & _ & Hp & Hm).
  unfold parse_int. rewrite Htext. cbn [skip_spaces]. rewrite Hs.
  unfold split_sign. rewrite Hp, Hm.
  rewrite (parse_digits_scan 1 c r k v Hc Hscan Hcap). f_equal; lia.
Qed.

Lemma scan_uint (d : Decimal.uint) :
  d <> Decimal.Nil ->
  exists k, Decimal.nb_digits d = S k /\
    scan_digits false 0 0 (list_ascii_of_string (NilEmpty.string_of_uint d))
    = Some (S k, Z.of_uint d, []).
Proof.
  intros Hd. destruct (nb_digits_nonnil d Hd) as [k Hk]. exists k.
  split; [exact Hk|].
  pose proof (scan_digits_uint d false 0%nat 0 [] Hd) as Hscan.
  rewrite List.app_nil_r, decimal_acc_of_uint, Hk in Hscan. exact Hscan.
Qed.

(** [int] reads an unsigned literal, leading zeros included, as its value. *)
Lemma parse_int_unsigned (d : Decimal.uint) :
  d <> Decimal.Nil ->
  digits_exceed py (Decimal.nb_digits d) = false ->
  parse_int py (NilEmpty.string_of_uint d) = Ok (Z.of_uint d).
Proof.
  intros Hd Hcap.
  destruct (scan_uint d Hd) as (k & Hk & Hscan).
  destruct (uint_chars_head d Hd) as (c & r & Hhead & Hc).
  rewrite Hhead in Hscan. rewrite Hk in Hcap.
  exact (parse_int_scan _ c r k _ Hhead Hc Hscan Hcap).
Qed.

(** [int] reads a negative literal, leading zeros included, as the opposite
    of the value of its digits. *)
Lemma parse_int_negative_literal (d : Decimal.uint) :
  d <> Decimal.Nil ->
  digits_exceed py (Decimal.nb_digits d) = false ->
  parse_int py (negative_literal d) = Ok (- Z.of_uint d).
Proof.
  intros Hd Hcap.
  destruct (scan_uint d Hd) as (k & Hk & Hscan).
  destruct (uint_chars_head d Hd) as (c & r & Hhead & Hc).
  rewrite Hhead in Hscan. rewrite Hk in Hcap.
  unfold parse_int, negative_literal. cbn [list_ascii_of_string].
  change (skip_spaces ("-"%char :: ?l)) with ("-"%char :: l).
  change (split_sign ("-"%char :: ?l)) with (-1, l).
  rewrite Hhead, (parse_digits_scan (-1) c r k _ Hc Hscan Hcap).
  f_equal; lia.
Qed.

(** An integer that [int] has read is within the cap when rendered. *)
Lemma parse_int_format (text : string) (n : Z) :
  parse_int py text = Ok n -> format_int py n = Ok (str n).
Proof.
  unfold parse_int, parse_digits.
  destruct (split_sign _) as [sign cs] eqn:Hsign.
  destruct cs as [|c cs]; [discriminate|].
  destruct (is_underscore c); [discriminate|].
  destruct (scan_digits false 0 0 (c :: cs)) as [[[[|k] v] rest]|] eqn:Hscan;
    try discriminate.
  destruct (digits_exceed py (S k)) eqn:Hcap; [discriminate|].
  destruct (skip_spaces rest); [|discriminate]. intros [= <-].
  assert (Hv : 0 <= v < 10 ^ Z.of_nat (S k)).
  { apply (scan_digits_bound _ _ _ _ _ _ _ Hscan). cbn. lia. }
  destruct (decimal_digits_le v k Hv) as [Hpos Hneg].
  unfold format_int.
  destruct (split_sign_sign _ _ _ Hsign) as [-> | ->].
  - replace (1 * v) with v by lia.
    now rewrite (digits_exceed_le py _ _ Hpos Hcap).
  - replace (-1 * v) with (- v) by lia.
    now rewrite (digits_exceed_le py _ _ Hneg Hcap).
Qed.

(** [int(str(n)) = n], for [n] within the cap. *)
Lemma parse_int_str (n : Z) :
  digits_exceed py (decimal_digits n) = false ->
  parse_int py (str n) = Ok n.
Proof.
  destruct n as [|p|p]; [reflexivity|..];
    unfold str, decimal_digits; cbn [Z.to_int NilZero.string_of_int];
    intros Hcap;
    assert (Hd := DecimalPos.Unsigned.to_uint_nonnil p);
    unfold NilZero.string_of_uint;
    (destruct (Pos.to_uint p) eqn:E; [congruence|..]); rewrite <- E in *.
  all: try (rewrite (parse_int_unsigned _ Hd Hcap);
            unfold Z.of_uint; now rewrite DecimalPos.Unsigned.of_to).
  all: change (String "-" (NilEmpty.string_of_uint (Pos.to_uint p)))
         with (negative_literal (Pos.to_uint p));
       rewrite (parse_int_negative_literal _ Hd Hcap);
       unfold Z.of_uint; now rewrite DecimalPos.Unsigned.of_to.
Qed.

(** What [int] has read, [str] writes in a form that [int] reads back. *)
Lemma parse_int_reads_back (text : string) (n : Z) :
  parse_int py text = Ok n -> parse_int py (str n) = Ok n.
Proof.
  intros H. apply parse_int_str.
  apply parse_int_format in H. unfold format_int in H.
  now destruct (digits_exceed py (decimal_digits n)).
Qed.

Lemma parse_digits_blank (sign : Z) (cs ws : list ascii) :
  forallb is_space ws = true ->
  parse_digits py sign (cs ++ ws)%list = parse_digits py sign cs.
Proof.
  intros Hws. destruct cs as [|c cs].
  - cbn [app]. destruct ws as [|w ws]; [reflexivity|].
    pose proof Hws as Hw. simpl in Hw. apply andb_true_iff in Hw as [Hw _].
    destruct (is_space_plain _ Hw) as (Hd & Hu & _).
    cbn [parse_digits scan_digits]. now rewrite Hu, Hd.
  - change ((c :: cs) ++ ws)%list with (c :: (cs ++ ws))%list.
    cbn [parse_digits]. destruct (is_underscore c); [reflexivity|].
    change (c :: (cs ++ ws))%list with ((c :: cs) ++ ws)%list.
    rewrite (scan_digits_blank ws Hws).
    destruct (scan_digits false 0 0 (c :: cs)) as [[[[|k] v] rest]|];
      try reflexivity.
    destruct (digits_exceed py (S k)); [reflexivity|].
    rewrite skip_spaces_app.
    destruct (skip_spaces rest) as [|x l].
    + now rewrite (skip_spaces_all_blank _ Hws).
    + reflexivity.
Qed.

Lemma parse_digits_literal (sign n : Z) (cs : list ascii) :
  parse_digits py sign cs = Ok n -> forallb literal_char cs = true.
Proof.
  unfold parse_digits. destruct cs as [|c cs]; [discriminate|].
  destruct (is_underscore c); [discriminate|].
  destruct (scan_digits false 0 0 (c :: cs)) as [[[[|k] v] rest]|] eqn:Hscan;
    try discriminate.
  destruct (digits_exceed py (S k)); [discriminate|].
  destruct (skip_spaces rest) eqn:Hrest; [|discriminate]. intros _.
  destruct (scan_digits_split _ _ _ _ _ _ _ Hscan) as (pre & -> & Hpre).
  rewrite forallb_app. apply andb_true_iff. split.
  - revert Hpre. apply forallb_impl. intros x Hx. unfold literal_char.
    now rewrite Hx.
  - apply skip_spaces_nil in Hrest. revert Hrest. apply forallb_impl.
    intros x Hx. unfold literal_char. rewrite Hx.
    now rewrite !orb_true_r.
Qed.

(** A text that reads as an integer holds nothing but digits, underscores,
    signs and white space. *)
Lemma parse_int_literal (text : string) (n : Z) :
  parse_int py text = Ok n ->
  forallb literal_char (list_ascii_of_string text) = true.
Proof.
  unfold parse_int.
  destruct (skip_spaces_split (list_ascii_of_string text)) as (ws & Hcs & Hws).
  rewrite Hcs at 2.
  destruct (skip_spaces (list_ascii_of_string text)) as [|c r] eqn:Hskip;
    [discriminate|].
  rewrite forallb_app. intros H. apply andb_true_iff. split.
  - revert Hws. apply forallb_impl. intros x Hx. unfold literal_char.
    rewrite Hx. now rewrite !orb_true_r.
  - revert H. unfold split_sign.
    destruct (Ascii.eqb c "+") eqn:Hplus;
      [|destruct (Ascii.eqb c "-") eqn:Hminus].
    + intros H. apply parse_digits_literal in H.
      cbn [forallb]. rewrite H. unfold literal_char. rewrite Hplus.
      now rewrite !orb_true_r.
    + intros H. apply parse_digits_literal in H.
      cbn [forallb]. rewrite H. unfold literal_char. rewrite Hminus.
      now rewrite !orb_true_r.
    + apply parse_digits_literal.
Qed.

(** White space around a text does not change what [int] reads. *)
Lemma parse_int_padded (before text after : string) :
  blank before = true -> blank after = true ->
  parse_int py (before ++ text ++ after) = parse_int py text.
Proof.
  unfold blank. intros Hb Ha.
  unfold parse_int. rewrite !list_ascii_of_string_app.
  rewrite (skip_spaces_blank _ _ Hb), skip_spaces_app.
  destruct (skip_spaces (list_ascii_of_string text)) as [|c r].
  - now rewrite (skip_spaces_all_blank _ Ha).
  - unfold split_sign. cbn [app].
    destruct (Ascii.eqb c "+"); [apply parse_digits_blank, Ha|].
    destruct (Ascii.eqb c "-"); [apply parse_digits_blank, Ha|].
    apply (parse_digits_blank 1 (c :: r)), Ha.
Qed.

(** A sign in front of a text that starts with neither white space nor a
    sign: [-] negates what [int] reads, [+] leaves it. *)
Lemma parse_int_signed (c : ascii) (s : string) :
  is_space c = false -> Ascii.eqb c "+" = false -> Ascii.eqb c "-" = false ->
  parse_int py (String "-" (String c s)) = negated (parse_int py (String c s)) /\
  parse_int py (String "+" (String c s)) = parse_int py (String c s).
Proof.
  intros Hs Hp Hm. unfold parse_int.
  cbn [list_ascii_of_string].
  change (skip_spaces ("-"%char :: ?l)) with ("-"%char :: l).
  change (skip_spaces ("+"%char :: ?l)) with ("+"%char :: l).
  change (split_sign ("-"%char :: ?l)) with (-1, l).
  change (split_sign ("+"%char :: ?l)) with (1, l).
  cbn [skip_spaces]. rewrite Hs. unfold split_sign. rewrite Hp, Hm.
  split; [|reflexivity].
  unfold parse_digits, negated.
  destruct (is_underscore c); [reflexivity|].
  destruct (scan_digits _ _ _ _) as [[[[|k] v] rest]|]; try reflexivity.
  destruct (digits_exceed py (S k)); [reflexivity|].
  destruct (skip_spaces rest); [|reflexivity].
  f_equal; lia.
Qed.

(** An underscore between two runs of digits is passed over. *)
Lemma parse_int_grouped (d1 d2 : Decimal.uint) :
  d1 <> Decimal.Nil -> d2 <> Decimal.Nil ->
  digits_exceed py (Decimal.nb_digits d1 + Decimal.nb_digits d2) = false ->
  exists n,
    parse_int py
      (NilEmpty.string_of_uint d1 ++ "_" ++ NilEmpty.string_of_uint d2)
      = Ok n /\
    parse_int py (NilEmpty.string_of_uint d1 ++ NilEmpty.string_of_uint d2)
      = Ok n.
Proof.
  intros H1 H2 Hcap.
  destruct (nb_digits_nonnil d1 H1) as [k1 Hk1].
  destruct (uint_chars_head d1 H1) as (c & r & Hhead & Hc).
  rewrite Hk1 in Hcap. cbn [Nat.add] in Hcap.
  exists (decimal_acc d2 (decimal_acc d1 0)).
  split.
  - apply (parse_int_scan _ c
             (r ++ "_"%char :: list_ascii_of_string (NilEmpty.string_of_uint d2))
             (k1 + Decimal.nb_digits d2) _); [| exact Hc | | exact Hcap].
    + rewrite !list_ascii_of_string_app, Hhead. reflexivity.
    + change (c :: (r ++ ?l))%list with ((c :: r) ++ l)%list.
      rewrite <- Hhead, (scan_digits_uint d1 false 0%nat 0 _ H1).
      cbn [scan_digits]. change (is_digit "_") with false.
      change (is_underscore "_") with true. cbv iota.
      rewrite <- (List.app_nil_r (list_ascii_of_string _)).
      rewrite (scan_digits_uint d2 true _ _ [] H2).
      cbn [scan_digits Nat.add]. now rewrite Hk1.
  - apply (parse_int_scan _ c
             (r ++ list_ascii_of_string (NilEmpty.string_of_uint d2))
             (k1 + Decimal.nb_digits d2) _); [| exact Hc | | exact Hcap].
    + rewrite !list_ascii_of_string_app, Hhead. reflexivity.
    + change (c :: (r ++ ?l))%list with ((c :: r) ++ l)%list.
      rewrite <- Hhead, (scan_digits_uint d1 false 0%nat 0 _ H1).
      rewrite <- (List.app_nil_r (list_ascii_of_string _)).
      rewrite (scan_digits_uint d2 false _ _ [] H2).
      cbn [scan_digits Nat.add]. now rewrite Hk1.
Qed.

End Int.

(** ** The script, path by path *)

Lemma stdout_map_Print (lines : list string) : stdout (map Print lines) = lines.
Proof.
  induction lines as [|l lines IH]; cbn; congruence.
Qed.

Lemma hash_calls_map_Print (lines : list string) :
  hash_calls (map Print lines) = [].
Proof.
  induction lines as [|l lines IH]; cbn; congruence.
Qed.

Section ScriptProperties.

Variable py : interpreter.
Variable digest : Type.
Variable format_digest : digest -> result string.
Variable hash_int : Z -> result digest.

Lemma main_no_argument (argv : list string) :
  (List.length argv <= 1)%nat ->
  main py format_digest hash_int argv = ([Print usage_hint], Ok tt).
Proof.
  intros H. unfold main.
  destruct (Nat.ltb_spec 1 (List.length argv)); [lia|reflexivity].
Qed.

Lemma main_not_integer (argv : list string) (text : string) :
  nth_error argv 1 = Some text ->
  parse_int py text = Raise ValueError ->
  main py format_digest hash_int argv =
    ([Call_int text; Print invalid_input], Ok tt).
Proof.
  intros Harg Hparse. unfold main, getitem.
  rewrite (nth_error_1_length _ _ Harg), Harg.
  unfold bind, ret, int, try_except_ValueError. rewrite Hparse. reflexivity.
Qed.

(** A run on an argument that reads as [n]: one call of [int], one call of
    the primitive on [n], and then what [shown] tells. *)
Lemma main_integer_run (argv : list string) (text : string) (n : Z) :
  nth_error argv 1 = Some text ->
  parse_int py text = Ok n ->
  main py format_digest hash_int argv =
    ((Call_int text :: Call_hash_int n
        :: map Print (fst (shown py format_digest hash_int n)))%list,
     snd (shown py format_digest hash_int n)).
Proof.
  intros Harg Hparse. unfold main, getitem, shown.
  rewrite (nth_error_1_length _ _ Harg), Harg.
  unfold bind, ret, lift, int, try_except_ValueError, hash_integer,
    call_hash_int.
  rewrite Hparse, (parse_int_format py _ _ Hparse).
  destruct (hash_int n) as [d|[|cls]]; try reflexivity.
  destruct (format_digest d) as [digest_text|[|cls]]; try reflexivity.
  unfold print, sentence.
  destruct (writable py _); reflexivity.
Qed.

Lemma main_integer (argv : list string) (text : string) (n : Z) :
  nth_error argv 1 = Some text ->
  parse_int py text = Ok n ->
  hash_calls (fst (main py format_digest hash_int argv)) = [n] /\
  observe (main py format_digest hash_int argv) =
    shown py format_digest hash_int n.
Proof.
  intros Harg Hp. rewrite (main_integer_run _ _ _ Harg Hp).
  unfold observe. cbn [fst snd hash_calls stdout].
  rewrite hash_calls_map_Print, stdout_map_Print.
  now destruct (shown py format_digest hash_int n).
Qed.

(** The three ways into a run: no argument, an argument that is no integer,
    an argument that reads as an integer. *)
Lemma main_paths (argv : list string) :
  (nth_error argv 1 = None /\
   main py format_digest hash_int argv = ([Print usage_hint], Ok tt)) \/
  (exists text, nth_error argv 1 = Some text /\
     parse_int py text = Raise ValueError /\
     main py format_digest hash_int argv =
       ([Call_int text; Print invalid_input], Ok tt)) \/
  (exists text n, nth_error argv 1 = Some text /\
     parse_int py text = Ok n /\
     main py format_digest hash_int argv =
       ((Call_int text :: Call_hash_int n
           :: map Print (fst (shown py format_digest hash_int n)))%list,
        snd (shown py format_digest hash_int n))).
Proof.
  destruct (nth_error argv 1) as [text|] eqn:Harg.
  - right. destruct (parse_int_cases py text) as [Hp|[n Hp]].
    + left. exists text. eauto using main_not_integer.
    + right. exists text, n. eauto using main_integer_run.
  - left. split; [reflexivity|].
    apply main_no_argument. now apply nth_error_None in Harg.
Qed.

(** What [shown] can be: one line and a normal exit, or nothing and an
    exception outside [ValueError]. *)
Lemma shown_cases (n : Z) :
  (exists line, shown py format_digest hash_int n = ([line], Ok tt)) \/
  (exists cls, shown py format_digest hash_int n =
                 ([], Raise (OtherException cls))).
Proof.
  unfold shown.
  destruct (hash_int n) as [d|[|cls]];
    [|left; eexists; reflexivity|right; eexists; reflexivity].
  destruct (format_digest d) as [digest_text|[|cls]];
    [|left; eexists; reflexivity|right; eexists; reflexivity].
  destruct (writable py _); left; eexists; reflexivity.
Qed.

(** A run is decided by what [int] makes of the first argument. *)
Lemma main_parse_equal (argv1 argv2 : list string) (text1 text2 : string) :
  nth_error argv1 1 = Some text1 ->
  nth_error argv2 1 = Some text2 ->
  parse_int py text1 = parse_int py text2 ->
  hash_calls (fst (main py format_digest hash_int argv1)) =
  hash_calls (fst (main py format_digest hash_int argv2)) /\
  observe (main py format_digest hash_int argv1) =
  observe (main py format_digest hash_int argv2).
Proof.
  intros H1 H2 Heq.
  destruct (parse_int_cases py text1) as [Hp|[n Hp]].
  - rewrite (main_not_integer _ _ H1 Hp).
    rewrite Heq in Hp. rewrite (main_not_integer _ _ H2 Hp).
    now split.
  - destruct (main_integer _ _ _ H1 Hp) as [-> ->].
    rewrite Heq in Hp.
    destruct (main_integer _ _ _ H2 Hp) as [-> ->].
    now split.
Qed.

(** The program name and whatever follows the first argument play no part. *)
Lemma main_first_argument (argv : list string) (text : string) :
  nth_error argv 1 = Some text ->
  main py format_digest hash_int argv =
  main py format_digest hash_int [""; text].
Proof.
  intros Harg.
  destruct (parse_int_cases py text) as [Hp|[n Hp]].
  - rewrite (main_not_integer _ _ Harg Hp).
    now rewrite (main_not_integer [""; text] text eq_refl Hp).
  - rewrite (main_integer_run _ _ _ Harg Hp).
    now rewrite (main_integer_run [""; text] _ _ eq_refl Hp).
Qed.

(** ** The claims about the shim *)

(** C1: for every integer [n], [hash_integer(n)] is exactly [hash_int(n)]:
    the shim makes one call of the primitive, with its argument unchanged,
    and hands back what the primitive returns or raises, with no
    transformation, validation or other computation. *)
Theorem hash_integer_forwards (n : Z) :
  hash_integer hash_int n = ([Call_hash_int n], hash_int n).
Proof.
  reflexivity.
Qed.

(** C2: determinism.  For every integer [n] on which the primitive returns
    a digest, two calls of [hash_integer(n)] in a row both return that same
    digest; the result depends on [n] alone (the primitive being a pure
    function). *)
Theorem hash_integer_deterministic (n : Z) (d : digest) :
  snd (hash_integer hash_int n) = Ok d ->
  hash_integer_twice hash_int n =
    ([Call_hash_int n; Call_hash_int n], Ok (d, d)).
Proof.
  unfold hash_integer_twice, hash_integer, call_hash_int, bind, ret.
  cbn [snd]. intros ->. reflexivity.
Qed.

(** C4: when the argument is present and does not read as an integer, the
    program prints 'Invalid input. Please provide an integer.' and nothing
    else, ends normally with no uncaught exception, and never calls the
    primitive, so no digest is printed. *)
Theorem non_integer_argument_reported (argv : list string) (text : string) :
  nth_error argv 1 = Some text ->
  (forall n, parse_int py text <> Ok n) ->
  observe (main py format_digest hash_int argv) =
    (["Invalid input. Please provide an integer."], Ok tt) /\
  hash_calls (fst (main py format_digest hash_int argv)) = [].
Proof.
  intros Harg Hno.
  rewrite (main_not_integer _ _ Harg (not_integer_ValueError _ _ Hno)).
  split; reflexivity.
Qed.

(** C5: when no argument is supplied ([argv] has length 1), the program
    prints 'Please provide an integer as a command line argument.' and
    nothing else, and neither [int] nor the primitive is called. *)
Theorem missing_argument_usage_hint (argv : list string) :
  List.length argv = 1%nat ->
  observe (main py format_digest hash_int argv) =
    (["Please provide an integer as a command line argument."], Ok tt) /\
  int_calls (fst (main py format_digest hash_int argv)) = [] /\
  hash_calls (fst (main py format_digest hash_int argv)) = [].
Proof.
  intros Hlen. rewrite main_no_argument by lia. repeat split.
Qed.

(** C6, as the code has it: an argument that reads as an integer [n] is not
    yet a success.  When the primitive returns a digest [d] on [n], the
    f-string renders it and standard output takes the line, the program
    prints exactly one line, 'The hash of {n} is {d}.', with the integer as
    [str] renders it, and ends normally.  When the primitive raises on [n],
    no line of that form is printed. *)
Theorem success_sentence (argv : list string) (text : string) (n : Z) :
  nth_error argv 1 = Some text ->
  parse_int py text = Ok n ->
  (forall (d : digest) (digest_text : string),
      hash_int n = Ok d ->
      format_digest d = Ok digest_text ->
      writable py ("The hash of " ++ str n ++ " is " ++ digest_text ++ ".")
        = true ->
      observe (main py format_digest hash_int argv) =
        (["The hash of " ++ str n ++ " is " ++ digest_text ++ "."], Ok tt)) /\
  ((forall d, hash_int n <> Ok d) ->
   forall line, In line (stdout (fst (main py format_digest hash_int argv))) ->
                String.prefix "The hash of " line = false).
Proof.
  intros Harg Hp.
  destruct (main_integer _ _ _ Harg Hp) as [_ Hobs]. split.
  - intros d digest_text Hh Hf Hw. rewrite Hobs. unfold shown, sentence.
    now rewrite Hh, Hf, Hw.
  - intros Hno line.
    change (stdout (fst (main py format_digest hash_int argv)))
      with (fst (observe (main py format_digest hash_int argv))).
    rewrite Hobs. unfold shown.
    destruct (hash_int n) as [d|[|cls]]; [now destruct (Hno d)|..];
      cbn [fst In]; [intros [<-|[]]; reflexivity|intros []].
Qed.

(** C7, as the code has it: the integer is taken from the first positional
    argument, and any further positional arguments are accepted and
    ignored: a run with several arguments is the run with the first of them
    alone. *)
Theorem extra_arguments_ignored (prog text : string) (rest : list string) :
  main py format_digest hash_int (prog :: text :: rest) =
  main py format_digest hash_int [prog; text].
Proof.
  rewrite (main_first_argument (prog :: text :: rest) text eq_refl).
  now rewrite (main_first_argument [prog; text] text eq_refl).
Qed.

(** C8, as the code has it: [int] accepts negative literals up to the
    interpreter's cap on digits.  For every literal made of a minus sign and
    decimal digits of non-zero value, leading zeros included, with white
    space around it or not, and with no more digits than the cap allows,
    parsing succeeds with the negative value, the primitive is called once
    with exactly that value (no rejection of the sign, no encoding, no
    offset), and what the run shows is decided by the primitive and the
    rendering of its digest alone. *)
Theorem negative_literal_forwarded (d : Decimal.uint)
    (prog before after : string) (rest : list string) :
  0 < Z.of_uint d ->
  digits_exceed py (Decimal.nb_digits d) = false ->
  blank before = true ->
  blank after = true ->
  let n := - Z.of_uint d in
  let text := before ++ negative_literal d ++ after in
  let run := main py format_digest hash_int (prog :: text :: rest) in
  n < 0 /\
  parse_int py text = Ok n /\
  hash_calls (fst run) = [n] /\
  observe run = shown py format_digest hash_int n.
Proof.
  intros Hpos Hcap Hb Ha n text run.
  assert (Hd : d <> Decimal.Nil) by (intros ->; cbn in Hpos; lia).
  assert (Hp : parse_int py text = Ok n).
  { subst text. rewrite (parse_int_padded py _ _ _ Hb Ha).
    exact (parse_int_negative_literal py d Hd Hcap). }
  split; [subst n; lia|]. split; [exact Hp|].
  exact (main_integer (prog :: text :: rest) _ _ eq_refl Hp).
Qed.

(** C9: two argument texts that read as the same integer (such as '5' and
    '05') hash identically: the primitive gets the same value and the two
    runs print the same output and end the same way. *)
Theorem same_integer_same_digest (argv1 argv2 : list string)
    (text1 text2 : string) (n : Z) :
  nth_error argv1 1 = Some text1 ->
  nth_error argv2 1 = Some text2 ->
  parse_int py text1 = Ok n ->
  parse_int py text2 = Ok n ->
  hash_calls (fst (main py format_digest hash_int argv1)) =
  hash_calls (fst (main py format_digest hash_int argv2)) /\
  observe (main py format_digest hash_int argv1) =
  observe (main py format_digest hash_int argv2).
Proof.
  intros Harg1 Harg2 H1 H2.
  destruct (main_integer _ _ _ Harg1 H1) as [-> ->].
  destruct (main_integer _ _ _ Harg2 H2) as [-> ->].
  split; reflexivity.
Qed.

(** C10: the try block spans parsing and hashing.  A [ValueError] raised by
    the primitive on a well-formed integer is caught and reported with the
    parse-error message, and the run shows exactly what a run on a text
    that is no integer shows: the two cannot be told apart from outside. *)
Theorem hash_ValueError_reported_as_parse_error
    (argv argv' : list string) (text text' : string) (n : Z) :
  nth_error argv 1 = Some text ->
  parse_int py text = Ok n ->
  hash_int n = Raise ValueError ->
  nth_error argv' 1 = Some text' ->
  (forall m, parse_int py text' <> Ok m) ->
  observe (main py format_digest hash_int argv) =
    (["Invalid input. Please provide an integer."], Ok tt) /\
  observe (main py format_digest hash_int argv) =
  observe (main py format_digest hash_int argv').
Proof.
  intros Harg Hp Hh Harg' Hno.
  destruct (main_integer _ _ _ Harg Hp) as [_ ->].
  rewrite (main_not_integer _ _ Harg' (not_integer_ValueError _ _ Hno)).
  unfold shown. rewrite Hh. split; reflexivity.
Qed.

(** ** Further properties of a run *)

(** X1: an exception of the primitive outside [ValueError] is not caught:
    the run prints nothing and ends with that exception, after the one call
    of the primitive. *)
Theorem other_exception_uncaught (argv : list string) (text cls : string)
    (n : Z) :
  nth_error argv 1 = Some text ->
  parse_int py text = Ok n ->
  hash_int n = Raise (OtherException cls) ->
  observe (main py format_digest hash_int argv) =
    ([], Raise (OtherException cls)) /\
  hash_calls (fst (main py format_digest hash_int argv)) = [n].
Proof.
  intros Harg Hp Hh. destruct (main_integer _ _ _ Harg Hp) as [-> ->].
  unfold shown. now rewrite Hh.
Qed.

(** X2: whatever the command line, a run either prints exactly one line and
    ends normally, or prints nothing and ends with an exception outside
    [ValueError]; a [ValueError] never leaves the script and no output is
    ever followed by a failure. *)
Theorem one_line_or_uncaught (argv : list string) :
  (exists line,
      observe (main py format_digest hash_int argv) = ([line], Ok tt)) \/
  (exists cls, observe (main py format_digest hash_int argv) =
                 ([], Raise (OtherException cls))).
Proof.
  destruct (main_paths argv) as
    [[_ ->]|[(t & _ & _ & ->)|(t & n & Ha & Hp & _)]];
    [left; eexists; reflexivity .. |].
  destruct (main_integer _ _ _ Ha Hp) as [_ ->]. apply shown_cases.
Qed.

(** X3: [int] is called at most once, on the first argument when there is
    one; the primitive is called at most once, on the value [int] returned,
    and not at all when the argument is missing or is no integer. *)
Theorem calls_of_a_run (argv : list string) :
  int_calls (fst (main py format_digest hash_int argv)) =
    match nth_error argv 1 with
    | Some text => [text]
    | None => []
    end /\
  hash_calls (fst (main py format_digest hash_int argv)) =
    match nth_error argv 1 with
    | Some text =>
        match parse_int py text with
        | Ok n => [n]
        | Raise _ => []
        end
    | None => []
    end.
Proof.
  destruct (main_paths argv) as
    [[Ha ->]|[(t & Ha & Hp & ->)|(t & n & Ha & Hp & ->)]];
    rewrite Ha; try rewrite Hp; cbn [fst int_calls hash_calls];
    [now split..|].
  rewrite hash_calls_map_Print. split; [|reflexivity].
  f_equal. now induction (fst (shown py format_digest hash_int n)).
Qed.

(** X4: the message 'Invalid input. Please provide an integer.' is what a
    run shows exactly when there is a first argument and something in the
    try block raised [ValueError]: [int] does not read the argument, or the
    primitive raises [ValueError] on its value, or rendering the digest
    raises [ValueError], or standard output cannot encode the digest line. *)
Theorem invalid_input_iff (argv : list string) :
  observe (main py format_digest hash_int argv) =
    (["Invalid input. Please provide an integer."], Ok tt) <->
  exists text, nth_error argv 1 = Some text /\
    (parse_int py text = Raise ValueError \/
     exists n, parse_int py text = Ok n /\
       (hash_int n = Raise ValueError \/
        exists d, hash_int n = Ok d /\
          (format_digest d = Raise ValueError \/
           exists digest_text, format_digest d = Ok digest_text /\
             writable py
               ("The hash of " ++ str n ++ " is " ++ digest_text ++ ".")
               = false))).
Proof.
  split.
  - destruct (main_paths argv) as
      [[Ha ->]|[(t & Ha & Hp & ->)|(t & n & Ha & Hp & _)]].
    + intros H. inversion H.
    + intros _. exists t. auto.
    + destruct (main_integer _ _ _ Ha Hp) as [_ ->]. unfold shown.
      intros H. exists t. split; [exact Ha|]. right. exists n.
      split; [exact Hp|].
      destruct (hash_int n) as [d|[|cls]]; [|now left|discriminate H].
      right. exists d. split; [reflexivity|].
      destruct (format_digest d) as [digest_text|[|cls]];
        [|now left|discriminate H].
      right. exists digest_text. split; [reflexivity|].
      unfold sentence in H.
      destruct (writable py _); [inversion H|reflexivity].
  - intros (t & Ha & [Hp|(n & Hp & Hcause)]).
    + now rewrite (main_not_integer _ _ Ha Hp).
    + destruct (main_integer _ _ _ Ha Hp) as [_ ->]. unfold shown, sentence.
      destruct Hcause as [Hh|(d & Hh & [Hf|(s & Hf & Hw)])]; rewrite Hh;
        [reflexivity|rewrite Hf; reflexivity|now rewrite Hf, Hw].
Qed.

(** X5: a line that starts with 'The hash of ' is printed only when the
    first argument reads as an integer, the primitive returned a digest for
    it and the digest rendered as a text; the line then carries that integer
    and that text. *)
Theorem digest_line_only_from_primitive (argv : list string) (line : string) :
  stdout (fst (main py format_digest hash_int argv)) = [line] ->
  String.prefix "The hash of " line = true ->
  exists text n d digest_text,
    nth_error argv 1 = Some text /\ parse_int py text = Ok n /\
    hash_int n = Ok d /\ format_digest d = Ok digest_text /\
    line = "The hash of " ++ str n ++ " is " ++ digest_text ++ ".".
Proof.
  destruct (main_paths argv) as
    [[Ha ->]|[(t & Ha & Hp & ->)|(t & n & Ha & Hp & _)]].
  - intros [= <-] Hpre. vm_compute in Hpre. discriminate Hpre.
  - intros [= <-] Hpre. vm_compute in Hpre. discriminate Hpre.
  - change (stdout (fst (main py format_digest hash_int argv)))
      with (fst (observe (main py format_digest hash_int argv))).
    destruct (main_integer _ _ _ Ha Hp) as [_ ->]. unfold shown.
    destruct (hash_int n) as [d|[|cls]] eqn:Hh; cbn [fst];
      [| intros [= <-] Hpre; vm_compute in Hpre; discriminate Hpre
       | discriminate ].
    destruct (format_digest d) as [digest_text|[|cls]] eqn:Hf; cbn [fst];
      [| intros [= <-] Hpre; vm_compute in Hpre; discriminate Hpre
       | discriminate ].
    destruct (writable py _); cbn [fst]; intros [= <-] Hpre;
      [| vm_compute in Hpre; discriminate Hpre ].
    now exists t, n, d, digest_text.
Qed.

(** X6: the integer echoed in the output is in the form [str] gives it, and
    [int] reads that form back as the same integer: a run on the echoed text
    calls the primitive on the same value and shows the same output. *)
Theorem echoed_input_reads_back (argv : list string) (prog text : string)
    (n : Z) :
  nth_error argv 1 = Some text ->
  parse_int py text = Ok n ->
  parse_int py (str n) = Ok n /\
  hash_calls (fst (main py format_digest hash_int [prog; str n])) =
  hash_calls (fst (main py format_digest hash_int argv)) /\
  observe (main py format_digest hash_int [prog; str n]) =
  observe (main py format_digest hash_int argv).
Proof.
  intros Harg Hp. pose proof (parse_int_reads_back py _ _ Hp) as Hback.
  split; [exact Hback|].
  apply (main_parse_equal [prog; str n] argv (str n) text eq_refl Harg).
  now rewrite Hback, Hp.
Qed.

(** X7: an argument that holds a character other than a digit, an
    underscore, a sign or white space (a decimal point, an exponent, a hex
    prefix, a letter) is reported as invalid input, and the primitive is not
    called. *)
Theorem foreign_character_rejected (argv : list string) (text : string) :
  nth_error argv 1 = Some text ->
  forallb literal_char (list_ascii_of_string text) = false ->
  observe (main py format_digest hash_int argv) = ([invalid_input], Ok tt) /\
  hash_calls (fst (main py format_digest hash_int argv)) = [].
Proof.
  intros Harg Hchar.
  assert (Hp : parse_int py text = Raise ValueError).
  { apply not_integer_ValueError. intros n Hn.
    apply parse_int_literal in Hn. congruence. }
  now rewrite (main_not_integer _ _ Harg Hp).
Qed.

(** X8: white space around the argument plays no part: [int] reads the
    padded text as it reads the bare one, and the two runs call the primitive
    alike and show the same. *)
Theorem padding_ignored (prog before text after : string) :
  blank before = true ->
  blank after = true ->
  parse_int py (before ++ text ++ after) = parse_int py text /\
  hash_calls
    (fst (main py format_digest hash_int [prog; before ++ text ++ after])) =
  hash_calls (fst (main py format_digest hash_int [prog; text])) /\
  observe (main py format_digest hash_int [prog; before ++ text ++ after]) =
  observe (main py format_digest hash_int [prog; text]).
Proof.
  intros Hb Ha.
  pose proof (parse_int_padded py before text after Hb Ha) as Hp.
  split; [exact Hp|].
  exact (main_parse_equal [prog; before ++ text ++ after] [prog; text]
           _ _ eq_refl eq_refl Hp).
Qed.

(** X9: a minus sign in front of an argument that starts with neither white
    space nor a sign negates what [int] reads and what the primitive is
    called on; a plus sign changes nothing. *)
Theorem sign_in_front (prog : string) (c : ascii) (s : string) :
  is_space c = false ->
  Ascii.eqb c "+" = false ->
  Ascii.eqb c "-" = false ->
  parse_int py (String "-" (String c s)) =
    negated (parse_int py (String c s)) /\
  hash_calls
    (fst (main py format_digest hash_int [prog; String "-" (String c s)])) =
    map Z.opp
      (hash_calls (fst (main py format_digest hash_int [prog; String c s]))) /\
  observe (main py format_digest hash_int [prog; String "+" (String c s)]) =
    observe (main py format_digest hash_int [prog; String c s]).
Proof.
  intros Hs Hplus Hminus.
  destruct (parse_int_signed py c s Hs Hplus Hminus) as [Hneg Hpos].
  split; [exact Hneg|]. split.
  - destruct (parse_int_cases py (String c s)) as [Hp|[n Hp]];
      rewrite Hp in Hneg; cbn [negated] in Hneg.
    + rewrite (main_not_integer [prog; String "-" (String c s)] _
                 eq_refl Hneg).
      now rewrite (main_not_integer [prog; String c s] _ eq_refl Hp).
    + destruct (main_integer [prog; String "-" (String c s)] _ _
                  eq_refl Hneg) as [-> _].
      now destruct (main_integer [prog; String c s] _ _ eq_refl Hp)
        as [-> _].
  - exact (proj2 (main_parse_equal [prog; String "+" (String c s)]
                    [prog; String c s] _ _ eq_refl eq_refl Hpos)).
Qed.

(** X10: an argument that is empty or white space only is reported as
    invalid input, and the primitive is not called. *)
Theorem blank_argument_rejected (argv : list string) (text : string) :
  nth_error argv 1 = Some text ->
  blank text = true ->
  observe (main py format_digest hash_int argv) = ([invalid_input], Ok tt) /\
  hash_calls (fst (main py format_digest hash_int argv)) = [].
Proof.
  intros Harg Hblank.
  assert (Hp : parse_int py text = Raise ValueError).
  { unfold parse_int. now rewrite (skip_spaces_all_blank _ Hblank). }
  now rewrite (main_not_integer _ _ Harg Hp).
Qed.

(** X11: leading zeros in the argument are passed over, up to the cap on
    digits, which counts them: when the digits with a zero put in front are
    still within the cap, the argument reads as the same integer, and the
    run calls the primitive alike and shows the same. *)
Theorem leading_zero_ignored (prog : string) (d : Decimal.uint) :
  d <> Decimal.Nil ->
  digits_exceed py (S (Decimal.nb_digits d)) = false ->
  parse_int py (NilEmpty.string_of_uint (Decimal.D0 d)) = Ok (Z.of_uint d) /\
  parse_int py (NilEmpty.string_of_uint d) = Ok (Z.of_uint d) /\
  hash_calls (fst (main py format_digest hash_int
                     [prog; NilEmpty.string_of_uint (Decimal.D0 d)])) =
  hash_calls (fst (main py format_digest hash_int
                     [prog; NilEmpty.string_of_uint d])) /\
  observe (main py format_digest hash_int
             [prog; NilEmpty.string_of_uint (Decimal.D0 d)]) =
  observe (main py format_digest hash_int [prog; NilEmpty.string_of_uint d]).
Proof.
  intros Hd Hcap.
  assert (H0 : parse_int py (NilEmpty.string_of_uint (Decimal.D0 d))
               = Ok (Z.of_uint d)).
  { now rewrite parse_int_unsigned by (discriminate || exact Hcap). }
  assert (H1 : parse_int py (NilEmpty.string_of_uint d) = Ok (Z.of_uint d)).
  { apply (parse_int_unsigned py d Hd).
    apply (digits_exceed_le py _ (S (Decimal.nb_digits d))); [lia|exact Hcap]. }
  split; [exact H0|]. split; [exact H1|].
  apply (main_parse_equal [prog; _] [prog; _] _ _ eq_refl eq_refl).
  now rewrite H0, H1.
Qed.

(** X12: a single underscore between two runs of digits is passed over:
    when the digits together are within the cap, the argument reads as the
    integer of the digits put together, and the run calls the primitive
    alike and shows the same as without the underscore. *)
Theorem underscore_between_digits_ignored (prog : string)
    (d1 d2 : Decimal.uint) :
  d1 <> Decimal.Nil ->
  d2 <> Decimal.Nil ->
  digits_exceed py (Decimal.nb_digits d1 + Decimal.nb_digits d2) = false ->
  let grouped :=
    NilEmpty.string_of_uint d1 ++ "_" ++ NilEmpty.string_of_uint d2 in
  let plain := NilEmpty.string_of_uint d1 ++ NilEmpty.string_of_uint d2 in
  (exists n, parse_int py grouped = Ok n /\ parse_int py plain = Ok n) /\
  hash_calls (fst (main py format_digest hash_int [prog; grouped])) =
  hash_calls (fst (main py format_digest hash_int [prog; plain])) /\
  observe (main py format_digest hash_int [prog; grouped]) =
  observe (main py format_digest hash_int [prog; plain]).
Proof.
  intros H1 H2 Hcap grouped plain.
  destruct (parse_int_grouped py d1 d2 H1 H2 Hcap) as (n & Hg & Hp).
  split; [now exists n|].
  apply (main_parse_equal [prog; grouped] [prog; plain] _ _ eq_refl eq_refl).
  subst grouped plain. now rewrite Hg, Hp.
Qed.

(** X13: a literal with more digits than the cap allows, signed or not, is
    not read by [int]: the run reports invalid input and the primitive is
    not called, however large or small the integer it spells. *)
Theorem literal_beyond_cap_rejected (prog : string) (d : Decimal.uint) :
  digits_exceed py (Decimal.nb_digits d) = true ->
  let unsigned := NilEmpty.string_of_uint d in
  parse_int py unsigned = Raise ValueError /\
  parse_int py (negative_literal d) = Raise ValueError /\
  observe (main py format_digest hash_int [prog; unsigned]) =
    ([invalid_input], Ok tt) /\
  observe (main py format_digest hash_int [prog; negative_literal d]) =
    ([invalid_input], Ok tt) /\
  hash_calls (fst (main py format_digest hash_int [prog; unsigned])) = [] /\
  hash_calls (fst (main py format_digest hash_int [prog; negative_literal d]))
    = [].
Proof.
  intros Hcap unsigned.
  assert (Hd : d <> Decimal.Nil) by (intros ->; discriminate Hcap).
  destruct (scan_uint d Hd) as (k & Hk & Hscan).
  destruct (uint_chars_head d Hd) as (c & r & Hhead & Hc).
  destruct (is_digit_plain _ Hc) as (Hs & Hu & Hp & Hm).
  rewrite Hhead in Hscan. rewrite Hk in Hcap.
  assert (Hdigits : forall sign, parse_digits py sign (c :: r)
                                 = Raise ValueError).
  { intros sign. unfold parse_digits. now rewrite Hu, Hscan, Hcap. }
  assert (H1 : parse_int py unsigned = Raise ValueError).
  { unfold parse_int, unsigned. rewrite Hhead. cbn [skip_spaces].
    rewrite Hs. unfold split_sign. rewrite Hp, Hm. apply Hdigits. }
  assert (H2 : parse_int py (negative_literal d) = Raise ValueError).
  { unfold parse_int, negative_literal. cbn [list_ascii_of_string].
    change (skip_spaces ("-"%char :: ?l)) with ("-"%char :: l).
    change (split_sign ("-"%char :: ?l)) with (-1, l).
    rewrite Hhead. apply Hdigits. }
  rewrite (main_not_integer [prog; unsigned] _ eq_refl H1).
  rewrite (main_not_integer [prog; negative_literal d] _ eq_refl H2).
  repeat split; assumption.
Qed.

(** X14: the f-string and [print] sit inside the try block: when the
    primitive returned a digest but rendering it raises [ValueError], or
    standard output cannot encode the line, the run reports invalid input
    and ends normally, although the argument was an integer and was hashed. *)
Theorem rendering_failure_reported (argv : list string) (text : string)
    (n : Z) (d : digest) :
  nth_error argv 1 = Some text ->
  parse_int py text = Ok n ->
  hash_int n = Ok d ->
  (format_digest d = Raise ValueError \/
   exists digest_text, format_digest d = Ok digest_text /\
     writable py ("The hash of " ++ str n ++ " is " ++ digest_text ++ ".")
       = false) ->
  observe (main py format_digest hash_int argv) = ([invalid_input], Ok tt) /\
  hash_calls (fst (main py format_digest hash_int argv)) = [n].
Proof.
  intros Harg Hp Hh Hcause.
  destruct (main_integer _ _ _ Harg Hp) as [-> ->]. split; [|reflexivity].
  unfold shown, sentence. rewrite Hh.
  destruct Hcause as [Hf|(s & Hf & Hw)]; now rewrite Hf, ?Hw.
Qed.

End ScriptProperties.

(** ** The failure modes, with the hash core of the specification *)

Section FailureModes.

Variable py : interpreter.
Variable digest : Type.
Variable render : digest -> string.
Variable capacity : Z.
Variable pipeline : Z -> digest.
Variable InputTooLarge : exn.
Variable sign_policy : Z -> result digest.

(** C3, as the code has it.  The hash core is the one the specification
    describes (a digest for every integer from 0 to the capacity,
    [InputTooLarge] above it, negative integers left to the sign policy),
    its digests render as text and standard output takes every line.  Then,
    for a run on a first argument:
    - a text that [int] does not read is reported as invalid input, the run
      ends normally and the hash is not called;
    - an integer of the valid domain has its digest sentence printed;
    - an integer above the capacity fails with [InputTooLarge], which leaves
      the process uncaught, unless it is a [ValueError]: then it is reported
      as invalid input;
    - nothing leaves the process uncaught but [InputTooLarge] on an integer
      above the capacity, or what the sign policy raises on a negative one;
    - invalid input is reported only for a text that [int] does not read, for
      an integer above the capacity when [InputTooLarge] is a [ValueError],
      and for a negative integer on which the sign policy raises
      [ValueError]. *)
Theorem failure_modes (argv : list string) (text : string) :
  (forall line, writable py line = true) ->
  nth_error argv 1 = Some text ->
  let hash := spec_hash capacity pipeline InputTooLarge sign_policy in
  let run := main py (fun d => Ok (render d)) hash argv in
  ((forall n, parse_int py text <> Ok n) ->
   observe run = ([invalid_input], Ok tt) /\ hash_calls (fst run) = []) /\
  (forall n, parse_int py text = Ok n -> 0 <= n <= capacity ->
     observe run = ([sentence (str n) (render (pipeline n))], Ok tt)) /\
  (forall n, parse_int py text = Ok n -> 0 <= n -> capacity < n ->
     observe run =
       match InputTooLarge with
       | ValueError => ([invalid_input], Ok tt)
       | e => ([], Raise e)
       end) /\
  (forall e, snd run = Raise e ->
     exists n, parse_int py text = Ok n /\
       (0 <= n /\ capacity < n /\ e = InputTooLarge \/
        n < 0 /\ sign_policy n = Raise e)) /\
  (observe run = ([invalid_input], Ok tt) ->
     (forall n, parse_int py text <> Ok n) \/
     exists n, parse_int py text = Ok n /\
       (0 <= n /\ capacity < n /\ InputTooLarge = ValueError \/
        n < 0 /\ sign_policy n = Raise ValueError)).
Proof.
  intros Hout Harg hash run.
  assert (Hshown : forall n, parse_int py text = Ok n ->
            observe run =
              match hash n with
              | Ok d => ([sentence (str n) (render d)], Ok tt)
              | Raise ValueError => ([invalid_input], Ok tt)
              | Raise e => ([], Raise e)
              end).
  { intros n Hp. subst run.
    destruct (main_integer py _ (fun d => Ok (render d)) hash _ _ _ Harg Hp)
      as [_ ->].
    unfold shown. destruct (hash n) as [d|e]; [|reflexivity].
    now rewrite Hout. }
  assert (Hin : forall n, 0 <= n <= capacity -> hash n = Ok (pipeline n)).
  { intros n Hn. unfold hash, spec_hash.
    destruct (Z.ltb_spec n 0); [lia|].
    destruct (Z.leb_spec n capacity); [reflexivity|lia]. }
  assert (Hover : forall n, 0 <= n -> capacity < n ->
                            hash n = Raise InputTooLarge).
  { intros n Hn Hc. unfold hash, spec_hash.
    destruct (Z.ltb_spec n 0); [lia|].
    destruct (Z.leb_spec n capacity); [lia|reflexivity]. }
  assert (Hneg : forall n, n < 0 -> hash n = sign_policy n).
  { intros n Hn. unfold hash, spec_hash.
    destruct (Z.ltb_spec n 0); [reflexivity|lia]. }
  assert (Hdomain : forall n, n < 0 \/ 0 <= n <= capacity \/
                              (0 <= n /\ capacity < n)) by (intros; lia).
  repeat split.
  - subst run.
    now rewrite (main_not_integer _ _ _ _ _ _ Harg
                   (not_integer_ValueError _ _ H)).
  - subst run.
    now rewrite (main_not_integer _ _ _ _ _ _ Harg
                   (not_integer_ValueError _ _ H)).
  - intros n Hp Hn. now rewrite (Hshown n Hp), (Hin n Hn).
  - intros n Hp Hn Hc. rewrite (Hshown n Hp), (Hover n Hn Hc).
    now destruct InputTooLarge.
  - intros e Hrun.
    destruct (parse_int_cases py text) as [Hp|[n Hp]].
    + subst run. rewrite (main_not_integer _ _ _ _ _ _ Harg Hp) in Hrun.
      discriminate Hrun.
    + exists n. split; [exact Hp|].
      change (snd run) with (snd (observe run)) in Hrun.
      rewrite (Hshown n Hp) in Hrun.
      destruct (Hdomain n) as [Hn|[Hn|[Hn Hc]]].
      * right. split; [exact Hn|]. rewrite (Hneg n Hn) in Hrun.
        destruct (sign_policy n) as [d|[|cls]]; try discriminate Hrun.
        now injection Hrun as <-.
      * rewrite (Hin n Hn) in Hrun. discriminate Hrun.
      * left. rewrite (Hover n Hn Hc) in Hrun.
        destruct InputTooLarge as [|cls]; [discriminate Hrun|].
        now injection Hrun as <-.
  - intros Hobs.
    destruct (parse_int_cases py text) as [Hp|[n Hp]].
    + left. intros n. rewrite Hp. discriminate.
    + right. exists n. split; [exact Hp|].
      rewrite (Hshown n Hp) in Hobs.
      destruct (Hdomain n) as [Hn|[Hn|[Hn Hc]]].
      * right. split; [exact Hn|]. rewrite (Hneg n Hn) in Hobs.
        destruct (sign_policy n) as [d|[|cls]];
          [inversion Hobs|reflexivity|discriminate Hobs].
      * rewrite (Hin n Hn) in Hobs. inversion Hobs.
      * left. rewrite (Hover n Hn Hc) in Hobs.
        destruct InputTooLarge as [|cls]; [now repeat split|discriminate Hobs].
Qed.

End FailureModes.

(** ** The script on concrete command lines *)

Lemma hash_integer_deterministic_witness :
  hash_integer_twice Sample.hash_int 5 =
    ([Call_hash_int 5; Call_hash_int 5], Ok (32, 32)).
Proof.
  apply (hash_integer_deterministic Z Sample.hash_int 5 32).
  reflexivity.
Defined.

Lemma non_integer_argument_reported_witness :
  parse_int Sample.py "abc" = Raise ValueError /\
  observe (main Sample.py Sample.format_digest Sample.hash_int
             ["hash_integer.py"; "abc"]) =
    (["Invalid input. Please provide an integer."], Ok tt) /\
  hash_calls (fst (main Sample.py Sample.format_digest Sample.hash_int
                     ["hash_integer.py"; "abc"])) = [].
Proof.
  split; [reflexivity|].
  apply (non_integer_argument_reported Sample.py Z Sample.format_digest
           Sample.hash_int ["hash_integer.py"; "abc"] "abc").
  - reflexivity.
  - intros n. vm_compute. discriminate.
Defined.

Lemma missing_argument_usage_hint_witness :
  observe (main Sample.py Sample.format_digest Sample.hash_int
             ["hash_integer.py"]) =
    (["Please provide an integer as a command line argument."], Ok tt) /\
  int_calls (fst (main Sample.py Sample.format_digest Sample.hash_int
                    ["hash_integer.py"])) = [] /\
  hash_calls (fst (main Sample.py Sample.format_digest Sample.hash_int
                     ["hash_integer.py"])) = [].
Proof.
  apply (missing_argument_usage_hint Sample.py Z Sample.format_digest
           Sample.hash_int ["hash_integer.py"]).
  reflexivity.
Defined.

Lemma success_sentence_witness :
  observe (main Sample.py Sample.format_digest Sample.hash_int
             ["hash_integer.py"; " +0_5 "]) =
    (["The hash of 5 is 32."], Ok tt).
Proof.
  destruct (success_sentence Sample.py Z Sample.format_digest Sample.hash_int
              ["hash_integer.py"; " +0_5 "] " +0_5 " 5 eq_refl eq_refl)
    as [Hsentence _].
  apply (Hsentence 32 "32"); reflexivity.
Defined.

(** An argument that reads as an integer, and no sentence: the sample
    primitive raises [ValueError] on [-5], and the hash core of the
    specification fails with [InputTooLarge] on [2 ^ 64]. *)
Lemma integer_argument_without_sentence :
  parse_int Sample.py "-5" = Ok (-5) /\
  observe (main Sample.py Sample.format_digest Sample.hash_int
             ["hash_integer.py"; "-5"]) =
    (["Invalid input. Please provide an integer."], Ok tt) /\
  parse_int Sample.py "18446744073709551616" = Ok (2 ^ 64) /\
  observe (main Sample.py Sample.format_digest Sample.core
             ["hash_integer.py"; "18446744073709551616"]) =
    ([], Raise Sample.InputTooLarge).
Proof.
  repeat split; vm_compute; reflexivity.
Qed.

(** With two positional arguments the script does not turn the command line
    down: it reads the first one, hashes it and prints the digest. *)
Lemma several_arguments_accepted :
  (2 < List.length ["hash_integer.py"; "5"; "7"])%nat /\
  main Sample.py Sample.format_digest Sample.hash_int
    ["hash_integer.py"; "5"; "7"] =
    ([Call_int "5"; Call_hash_int 5; Print "The hash of 5 is 32."], Ok tt) /\
  main Sample.py Sample.format_digest Sample.hash_int
    ["hash_integer.py"; "5"; "7"] =
  main Sample.py Sample.format_digest Sample.hash_int ["hash_integer.py"; "5"].
Proof.
  split; [repeat constructor | split; reflexivity].
Qed.

Lemma negative_literal_forwarded_witness :
  -5 < 0 /\
  parse_int Sample.py (" " ++ negative_literal (Decimal.D5 Decimal.Nil) ++ "")
    = Ok (-5) /\
  hash_calls
    (fst (main Sample.py Sample.format_digest Sample.hash_int
            ["hash_integer.py";
             " " ++ negative_literal (Decimal.D5 Decimal.Nil) ++ ""]))
    = [-5] /\
  observe (main Sample.py Sample.format_digest Sample.hash_int
             ["hash_integer.py";
              " " ++ negative_literal (Decimal.D5 Decimal.Nil) ++ ""]) =
    shown Sample.py Sample.format_digest Sample.hash_int (-5).
Proof.
  apply (negative_literal_forwarded Sample.py Z Sample.format_digest
           Sample.hash_int (Decimal.D5 Decimal.Nil) "hash_integer.py"
           " " "" []);
    reflexivity.
Defined.

(** A negative literal of 4301 digits under the default cap: [int] raises
    [ValueError], the run reports invalid input and the primitive is never
    called. *)
Lemma long_negative_literal_rejected :
  0 < Z.of_uint (Sample.ones 4301) /\
  parse_int Sample.py (negative_literal (Sample.ones 4301))
    = Raise ValueError /\
  observe (main Sample.py Sample.format_digest Sample.hash_int
             ["hash_integer.py"; negative_literal (Sample.ones 4301)]) =
    (["Invalid input. Please provide an integer."], Ok tt) /\
  hash_calls (fst (main Sample.py Sample.format_digest Sample.hash_int
                     ["hash_integer.py"; negative_literal (Sample.ones 4301)]))
    = [].
Proof.
  repeat split; vm_compute; reflexivity.
Qed.

Lemma same_integer_same_digest_witness :
  parse_int Sample.py "5" = Ok 5 /\ parse_int Sample.py "05" = Ok 5 /\
  hash_calls (fst (main Sample.py Sample.format_digest Sample.hash_int
                     ["hash_integer.py"; "5"])) =
  hash_calls (fst (main Sample.py Sample.format_digest Sample.hash_int
                     ["hash_integer.py"; "05"])) /\
  observe (main Sample.py Sample.format_digest Sample.hash_int
             ["hash_integer.py"; "5"]) =
  observe (main Sample.py Sample.format_digest Sample.hash_int
             ["hash_integer.py"; "05"]).
Proof.
  split; [reflexivity|]. split; [reflexivity|].
  apply (same_integer_same_digest Sample.py Z Sample.format_digest
           Sample.hash_int ["hash_integer.py"; "5"] ["hash_integer.py"; "05"]
           "5" "05" 5);
    reflexivity.
Defined.

Lemma hash_ValueError_reported_as_parse_error_witness :
  parse_int Sample.py "-5" = Ok (-5) /\
  Sample.hash_int (-5) = Raise ValueError /\
  observe (main Sample.py Sample.format_digest Sample.hash_int
             ["hash_integer.py"; "-5"]) =
    (["Invalid input. Please provide an integer."], Ok tt) /\
  observe (main Sample.py Sample.format_digest Sample.hash_int
             ["hash_integer.py"; "-5"]) =
  observe (main Sample.py Sample.format_digest Sample.hash_int
             ["hash_integer.py"; "five"]).
Proof.
  split; [reflexivity|]. split; [reflexivity|].
  apply (hash_ValueError_reported_as_parse_error Sample.py Z
           Sample.format_digest Sample.hash_int ["hash_integer.py"; "-5"]
           ["hash_integer.py"; "five"] "-5" "five" (-5)); try reflexivity.
  intros m. vm_compute. discriminate.
Defined.

Lemma failure_modes_witness :
  observe (main Sample.py (fun d => Ok (str d)) Sample.core
             ["hash_integer.py"; "5"]) =
    ([sentence (str 5) (str (Sample.pipeline 5))], Ok tt) /\
  observe (main Sample.py (fun d => Ok (str d)) Sample.core
             ["hash_integer.py"; "18446744073709551616"]) =
    ([], Raise Sample.InputTooLarge).
Proof.
  assert (Hout : forall line, writable Sample.py line = true).
  { intros line. unfold writable. cbn. apply orb_true_r. }
  split.
  - destruct (failure_modes Sample.py Z str Sample.capacity Sample.pipeline
                Sample.InputTooLarge Sample.sign_policy
                ["hash_integer.py"; "5"] "5" Hout eq_refl)
      as (_ & Hdomain & _).
    apply (Hdomain 5); [reflexivity|]. vm_compute. split; discriminate.
  - destruct (failure_modes Sample.py Z str Sample.capacity Sample.pipeline
                Sample.InputTooLarge Sample.sign_policy
                ["hash_integer.py"; "18446744073709551616"]
                "18446744073709551616" Hout eq_refl)
      as (_ & _ & Hover & _).
    apply (Hover (2 ^ 64)); [reflexivity| |]; vm_compute;
      (discriminate || reflexivity).
Defined.

(** A text of 4301 digits is numeric, and under the default cap the run
    reports it as invalid input without calling the hash: the message is not
    kept for non-numeric text, and an integer beyond every capacity does not
    reach [InputTooLarge]. *)
Lemma numeric_text_reported_invalid :
  forallb is_digit
    (list_ascii_of_string (NilEmpty.string_of_uint (Sample.ones 4301)))
    = true /\
  observe (main Sample.py Sample.format_digest Sample.core
             ["hash_integer.py"; NilEmpty.string_of_uint (Sample.ones 4301)]) =
    (["Invalid input. Please provide an integer."], Ok tt) /\
  hash_calls (fst (main Sample.py Sample.format_digest Sample.core
                     ["hash_integer.py";
                      NilEmpty.string_of_uint (Sample.ones 4301)])) = [].
Proof.
  repeat split; vm_compute; reflexivity.
Qed.

(** ** Further runs on concrete command lines *)

Lemma other_exception_uncaught_witness :
  observe (main Sample.py Sample.format_digest Sample.hash_int
             ["hash_integer.py"; "18446744073709551616"]) =
    ([], Raise (OtherException "OverflowError")) /\
  hash_calls (fst (main Sample.py Sample.format_digest Sample.hash_int
                     ["hash_integer.py"; "18446744073709551616"])) = [2 ^ 64].
Proof.
  apply (other_exception_uncaught Sample.py Z Sample.format_digest
           Sample.hash_int ["hash_integer.py"; "18446744073709551616"]
           "18446744073709551616" "OverflowError" (2 ^ 64));
    reflexivity.
Defined.

Lemma digest_line_only_from_primitive_witness :
  exists text n d digest_text,
    nth_error ["hash_integer.py"; "5"] 1 = Some text /\
    parse_int Sample.py text = Ok n /\ Sample.hash_int n = Ok d /\
    Sample.format_digest d = Ok digest_text /\
    "The hash of 5 is 32." =
      "The hash of " ++ str n ++ " is " ++ digest_text ++ ".".
Proof.
  apply (digest_line_only_from_primitive Sample.py Z Sample.format_digest
           Sample.hash_int ["hash_integer.py"; "5"] "The hash of 5 is 32.");
    reflexivity.
Defined.

Lemma echoed_input_reads_back_witness :
  parse_int Sample.py (str 5) = Ok 5 /\
  hash_calls (fst (main Sample.py Sample.format_digest Sample.hash_int
                     ["hash_integer.py"; str 5])) =
  hash_calls (fst (main Sample.py Sample.format_digest Sample.hash_int
                     ["hash_integer.py"; " +0_5 "; "7"])) /\
  observe (main Sample.py Sample.format_digest Sample.hash_int
             ["hash_integer.py"; str 5]) =
  observe (main Sample.py Sample.format_digest Sample.hash_int
             ["hash_integer.py"; " +0_5 "; "7"]).
Proof.
  apply (echoed_input_reads_back Sample.py Z Sample.format_digest
           Sample.hash_int ["hash_integer.py"; " +0_5 "; "7"]
           "hash_integer.py" " +0_5 " 5);
    reflexivity.
Defined.

Lemma foreign_character_rejected_witness :
  observe (main Sample.py Sample.format_digest Sample.hash_int
             ["hash_integer.py"; "1.5"]) = ([invalid_input], Ok tt) /\
  hash_calls (fst (main Sample.py Sample.format_digest Sample.hash_int
                     ["hash_integer.py"; "1.5"])) = [].
Proof.
  apply (foreign_character_rejected Sample.py Z Sample.format_digest
           Sample.hash_int ["hash_integer.py"; "1.5"] "1.5");
    reflexivity.
Defined.

Lemma padding_ignored_witness :
  parse_int Sample.py ("  " ++ "42" ++ " ") = parse_int Sample.py "42" /\
  hash_calls (fst (main Sample.py Sample.format_digest Sample.hash_int
                     ["hash_integer.py"; "  " ++ "42" ++ " "])) =
  hash_calls (fst (main Sample.py Sample.format_digest Sample.hash_int
                     ["hash_integer.py"; "42"])) /\
  observe (main Sample.py Sample.format_digest Sample.hash_int
             ["hash_integer.py"; "  " ++ "42" ++ " "]) =
  observe (main Sample.py Sample.format_digest Sample.hash_int
             ["hash_integer.py"; "42"]).
Proof.
  apply (padding_ignored Sample.py Z Sample.format_digest Sample.hash_int
           "hash_integer.py" "  " "42" " ");
    reflexivity.
Defined.

Lemma sign_in_front_witness :
  parse_int Sample.py "-42" = negated (parse_int Sample.py "42") /\
  hash_calls (fst (main Sample.py Sample.format_digest Sample.hash_int
                     ["hash_integer.py"; "-42"])) =
    map Z.opp (hash_calls (fst (main Sample.py Sample.format_digest
                                  Sample.hash_int ["hash_integer.py"; "42"]))) /\
  observe (main Sample.py Sample.format_digest Sample.hash_int
             ["hash_integer.py"; "+42"]) =
    observe (main Sample.py Sample.format_digest Sample.hash_int
               ["hash_integer.py"; "42"]).
Proof.
  apply (sign_in_front Sample.py Z Sample.format_digest Sample.hash_int
           "hash_integer.py" "4"%char "2");
    reflexivity.
Defined.

Lemma blank_argument_rejected_witness :
  observe (main Sample.py Sample.format_digest Sample.hash_int
             ["hash_integer.py"; ""]) = ([invalid_input], Ok tt) /\
  hash_calls (fst (main Sample.py Sample.format_digest Sample.hash_int
                     ["hash_integer.py"; ""])) = [].
Proof.
  apply (blank_argument_rejected Sample.py Z Sample.format_digest
           Sample.hash_int ["hash_integer.py"; ""] "");
    reflexivity.
Defined.

Lemma leading_zero_ignored_witness :
  parse_int Sample.py "007" = Ok 7 /\ parse_int Sample.py "07" = Ok 7 /\
  hash_calls (fst (main Sample.py Sample.format_digest Sample.hash_int
                     ["hash_integer.py"; "007"])) =
  hash_calls (fst (main Sample.py Sample.format_digest Sample.hash_int
                     ["hash_integer.py"; "07"])) /\
  observe (main Sample.py Sample.format_digest Sample.hash_int
             ["hash_integer.py"; "007"]) =
  observe (main Sample.py Sample.format_digest Sample.hash_int
             ["hash_integer.py"; "07"]).
Proof.
  apply (leading_zero_ignored Sample.py Z Sample.format_digest Sample.hash_int
           "hash_integer.py" (Decimal.D0 (Decimal.D7 Decimal.Nil)));
    [discriminate|reflexivity].
Defined.

Lemma underscore_between_digits_ignored_witness :
  (exists n, parse_int Sample.py "1_000" = Ok n /\
             parse_int Sample.py "1000" = Ok n) /\
  hash_calls (fst (main Sample.py Sample.format_digest Sample.hash_int
                     ["hash_integer.py"; "1_000"])) =
  hash_calls (fst (main Sample.py Sample.format_digest Sample.hash_int
                     ["hash_integer.py"; "1000"])) /\
  observe (main Sample.py Sample.format_digest Sample.hash_int
             ["hash_integer.py"; "1_000"]) =
  observe (main Sample.py Sample.format_digest Sample.hash_int
             ["hash_integer.py"; "1000"]).
Proof.
  apply (underscore_between_digits_ignored Sample.py Z Sample.format_digest
           Sample.hash_int "hash_integer.py" (Decimal.D1 Decimal.Nil)
           (Decimal.D0 (Decimal.D0 (Decimal.D0 Decimal.Nil))));
    [discriminate|discriminate|reflexivity].
Defined.

Lemma literal_beyond_cap_rejected_witness :
  parse_int Sample.py (NilEmpty.string_of_uint (Sample.ones 4301))
    = Raise ValueError /\
  parse_int Sample.py (negative_literal (Sample.ones 4301))
    = Raise ValueError /\
  observe (main Sample.py Sample.format_digest Sample.hash_int
             ["hash_integer.py"; NilEmpty.string_of_uint (Sample.ones 4301)]) =
    ([invalid_input], Ok tt) /\
  observe (main Sample.py Sample.format_digest Sample.hash_int
             ["hash_integer.py"; negative_literal (Sample.ones 4301)]) =
    ([invalid_input], Ok tt) /\
  hash_calls (fst (main Sample.py Sample.format_digest Sample.hash_int
                     ["hash_integer.py";
                      NilEmpty.string_of_uint (Sample.ones 4301)])) = [] /\
  hash_calls (fst (main Sample.py Sample.format_digest Sample.hash_int
                     ["hash_integer.py"; negative_literal (Sample.ones 4301)]))
    = [].
Proof.
  apply (literal_beyond_cap_rejected Sample.py Z Sample.format_digest
           Sample.hash_int "hash_integer.py" (Sample.ones 4301)).
  vm_compute. reflexivity.
Defined.

Lemma rendering_failure_reported_witness :
  format_int Sample.py_low (10 ^ 640) = Raise ValueError /\
  observe (main Sample.py_low (format_int Sample.py_low) Sample.wide_hash_int
             ["hash_integer.py"; "5"]) = ([invalid_input], Ok tt) /\
  hash_calls (fst (main Sample.py_low (format_int Sample.py_low)
                     Sample.wide_hash_int ["hash_integer.py"; "5"])) = [5].
Proof.
  assert (Hwide : format_int Sample.py_low (10 ^ 640) = Raise ValueError)
    by (vm_compute; reflexivity).
  split; [exact Hwide|].
  apply (rendering_failure_reported Sample.py_low Z (format_int Sample.py_low)
           Sample.wide_hash_int ["hash_integer.py"; "5"] "5" 5 (10 ^ 640));
    [reflexivity|reflexivity|reflexivity|].
  left. exact Hwide.
Defined.
